(** * ioprio: Linux I/O priority masks

    A shallow embedding of [src/lib.rs]: the packed 16-bit priority
    [Priority], the priority classes [Class] with their levels, the
    decoding [Priority::class], the encoding [Priority::new], the orderings
    and the mapping of a [Target] to the syscall's [which]/[who] pair.

    Machine integers are [Z]: a [u8], [u16] or [u32] is a [Z] in its range,
    and the casts of the source are written out with their wrap-around. *)

From Stdlib Require Import ZArith Lia List.
Import ListNotations.
Open Scope Z_scope.

(** ** Machine integers *)

(** Wrap-around of a [u16] result. *)
Definition wrap16 (x : Z) : Z := x mod 2 ^ 16.

(** [u16 as u8] through [TryInto]: [Err] (here [None]) above 255. *)
Definition u8_try_from_u16 (x : Z) : option Z :=
  if x <=? 255 then Some x else None.

(** [x as i32] (= [as libc::c_int]): two's-complement reinterpretation of
    the low 32 bits. *)
Definition as_i32 (x : Z) : Z :=
  let y := x mod 2 ^ 32 in if 2 ^ 31 <=? y then y - 2 ^ 32 else y.

(** [Ord::cmp] on Rust's [Ordering]: [Ordering::then_with] and
    [Ordering::reverse]. *)
Definition then_with (o : comparison) (f : unit -> comparison) : comparison :=
  match o with
  | Eq => f tt
  | _ => o
  end.

Definition reverse (o : comparison) : comparison := CompOpp o.

(** ** Priority levels *)

Module RtPriorityLevel.
(** [struct RtPriorityLevel { inner: u8 }] *)
Record t := mk { inner : Z }.

Definition highest : t := mk 0.
Definition lowest : t := mk 7.

Definition from_level (level : Z) : option t :=
  if level <? 8 then Some (mk level) else None.

Definition level (self : t) : Z := inner self.

(** [self.inner.into()]: [u8] to [u16], value preserving. *)
Definition data (self : t) : Z := inner self.

(** [impl Ord]: [Ord::cmp(&self.data(), &other.data()).reverse()] *)
Definition cmp (self other : t) : comparison :=
  reverse (Z.compare (data self) (data other)).

Definition partial_cmp (self other : t) : option comparison :=
  Some (cmp self other).

(** The invariant the constructors keep: the private field is 0..=7. *)
Definition valid (self : t) : Prop := 0 <= inner self <= 7.
End RtPriorityLevel.

Module BePriorityLevel.
(** [struct BePriorityLevel { inner: u8 }] *)
Record t := mk { inner : Z }.

Definition highest : t := mk 0.
Definition fallback : t := mk 4.
Definition lowest : t := mk 7.

Definition from_level (level : Z) : option t :=
  if level <? 8 then Some (mk level) else None.

Definition level (self : t) : Z := inner self.

Definition data (self : t) : Z := inner self.

Definition cmp (self other : t) : comparison :=
  reverse (Z.compare (data self) (data other)).

Definition partial_cmp (self other : t) : option comparison :=
  Some (cmp self other).

Definition valid (self : t) : Prop := 0 <= inner self <= 7.
End BePriorityLevel.

(** ** Classes *)

Inductive Class :=
| Realtime (l : RtPriorityLevel.t)
| BestEffort (l : BePriorityLevel.t)
| Idle.

Module ClassOps.
Definition rel_priority (self : Class) : Z :=
  match self with
  | Realtime _ => 2
  | BestEffort _ => 1
  | Idle => 0
  end.

Definition kind (self : Class) : Z :=
  match self with
  | Realtime _ => 1
  | BestEffort _ => 2
  | Idle => 3
  end.

Definition data (self : Class) : Z :=
  match self with
  | Realtime rt => RtPriorityLevel.data rt
  | BestEffort be => BePriorityLevel.data be
  | Idle => 0
  end.

(** The closure passed to [then_with]. Its last arm is [unreachable!()];
    the closure runs only when the two ranks are equal, and then the two
    variants agree (lemma [cmp_tail_reachable_same_variant] below), so
    the value given to that arm is never observed. *)
Definition cmp_tail (self other : Class) : comparison :=
  match self, other with
  | Realtime lhs, Realtime rhs => RtPriorityLevel.cmp lhs rhs
  | BestEffort lhs, BestEffort rhs => BePriorityLevel.cmp lhs rhs
  | Idle, Idle => Eq
  | _, _ => Eq (* unreachable!() *)
  end.

(** [impl Ord for Class] *)
Definition cmp (self other : Class) : comparison :=
  then_with (Z.compare (rel_priority self) (rel_priority other))
    (fun _ => cmp_tail self other).

Definition partial_cmp (self other : Class) : option comparison :=
  Some (cmp self other).

(** A class built from levels that satisfy their type's invariant. *)
Definition valid (self : Class) : Prop :=
  match self with
  | Realtime rt => RtPriorityLevel.valid rt
  | BestEffort be => BePriorityLevel.valid be
  | Idle => True
  end.
End ClassOps.

(** ** Packed priorities *)

Module Priority.
(** [struct Priority { inner: u16 }] *)
Record t := mk { inner : Z }.

(** [((class.kind() as u16) << 13) | class.data()] in [u16]. *)
Definition new (class : Class) : t :=
  mk (Z.lor (wrap16 (Z.shiftl (ClassOps.kind class) 13)) (ClassOps.data class)).

Definition class (self : t) : option Class :=
  let class_raw := Z.shiftr (inner self) 13 in
  let data := Z.land (inner self) 8191 (* 0x1FFF *) in
  if class_raw =? 1 then
    match u8_try_from_u16 data with
    | None => None
    | Some b =>
        match RtPriorityLevel.from_level b with
        | None => None
        | Some l => Some (Realtime l)
        end
    end
  else if class_raw =? 2 then
    match u8_try_from_u16 data with
    | None => None
    | Some b =>
        match BePriorityLevel.from_level b with
        | None => None
        | Some l => Some (BestEffort l)
        end
    end
  else if class_raw =? 3 then Some Idle
  else None.

Definition standard : t := mk 0.

Definition from_inner (inner : Z) : t := mk inner.

(** [impl PartialOrd for Priority]:
    [Some(Ord::cmp(&self.class()?, &other.class()?))] *)
Definition partial_cmp (self other : t) : option comparison :=
  match class self with
  | None => None
  | Some a =>
      match class other with
      | None => None
      | Some b => Some (ClassOps.cmp a b)
      end
  end.

(** The derived [PartialEq]: equality of the [inner] field. *)
Definition eq (self other : t) : bool := Z.eqb (inner self) (inner other).

(** [impl Default for Priority] *)
Definition default : t := standard.
End Priority.

(** ** Targets *)

(** [Pid] wraps a [pid_t] ([i32]); [Uid] wraps a [uid_t] ([u32]). *)
Inductive Target :=
| Process (pid : Z)
| ProcessGroup (pgid : Z)
| User (uid : Z).

(** [fn target_which_who(target) -> [c_int; 2]] *)
Definition target_which_who (target : Target) : Z * Z :=
  match target with
  | Process pid => (1, as_i32 pid)
  | ProcessGroup pgid => (2, as_i32 pgid)
  | User uid => (3, as_i32 uid)
  end.

(** ** The syscall wrappers *)

(** Rust's [Result]. *)
Inductive result (A E : Type) :=
| Ok (a : A)
| Err (e : E).
Arguments Ok {A E} a.
Arguments Err {A E} e.

(** [nix::errno::Errno::result]: the sentinel [-1] becomes [Err] of the
    [errno] left by the call ([Errno::last()]), any other value [Ok]. *)
Definition errno_result (res errno : Z) : result Z Z :=
  if res =? -1 then Err errno else Ok res.

Module Syscall.
Section Kernel.
(** The kernel: a state, and the two raw entry points, each returning the
    [c_long] result of [libc::syscall] with the [errno] it leaves. *)
Variable K : Type.
Variable sys_ioprio_get : K -> Z -> Z -> Z * Z.
Variable sys_ioprio_set : K -> Z -> Z -> Z -> (Z * Z) * K.

(** [get_priority]: [Errno::result(res).map(|mask| Priority { inner:
    mask as u16 })]. *)
Definition get_priority (k : K) (target : Target) : result Priority.t Z :=
  let '(which, who) := target_which_who target in
  let '(res, err) := sys_ioprio_get k which who in
  match errno_result res err with
  | Ok mask => Ok (Priority.mk (wrap16 mask))
  | Err e => Err e
  end.

(** [set_priority]: the mask is passed as [priority.inner as c_int], the
    result is [Errno::result(res).map(|_| ())]. *)
Definition set_priority (k : K) (target : Target) (priority : Priority.t)
    : result unit Z * K :=
  let '(which, who) := target_which_who target in
  let '(res, err, k') :=
    sys_ioprio_set k which who (as_i32 (Priority.inner priority)) in
  (match errno_result res err with
   | Ok _ => Ok tt
   | Err e => Err e
   end, k').
End Kernel.
Arguments get_priority {K} sys_ioprio_get k target.
Arguments set_priority {K} sys_ioprio_set k target priority.
End Syscall.

(** ** [SqeExt]: the priority field of an io_uring submission entry *)

Module SqeExt.
Section Sqe.
(** The fields of the raw entry other than [ioprio]. *)
Variable Other : Type.

Record SQE := mk_sqe { ioprio : Z; rest : Other }.

(** [fn priority(&self) -> Priority] *)
Definition priority (self : SQE) : Priority.t := Priority.mk (ioprio self).

(** [fn set_priority(&mut self, priority)]: [self.raw_mut().ioprio =
    priority.inner]. *)
Definition set_priority (self : SQE) (priority : Priority.t) : SQE :=
  mk_sqe (Priority.inner priority) (rest self).
End Sqe.
Arguments mk_sqe {Other} ioprio rest.
Arguments ioprio {Other} s.
Arguments rest {Other} s.
Arguments priority {Other} self.
Arguments set_priority {Other} self priority.
End SqeExt.

(** Sample evaluations of the scenarios of the documentation. *)
Example new_rt0 :
  Priority.inner (Priority.new (Realtime RtPriorityLevel.highest)) = 8192.
Proof. reflexivity. Qed.
Example new_be4 :
  Priority.inner (Priority.new (BestEffort BePriorityLevel.fallback)) = 16388.
Proof. reflexivity. Qed.
Example new_idle : Priority.inner (Priority.new Idle) = 24576.
Proof. reflexivity. Qed.
Example class_200a : Priority.class (Priority.from_inner 8202) = None.
Proof. reflexivity. Qed.

(** ** Arithmetic of the packed layout *)

Lemma shiftr13_div (v : Z) : 0 <= v -> Z.shiftr v 13 = v / 8192.
Proof. intros Hv. rewrite Z.shiftr_div_pow2 by lia. reflexivity. Qed.

Lemma land8191_mod (v : Z) : 0 <= v -> Z.land v 8191 = v mod 8192.
Proof.
  intros Hv. change 8191 with (Z.ones 13). rewrite Z.land_ones by lia.
  reflexivity.
Qed.

Lemma level_cases (x : Z) :
  0 <= x <= 7 ->
  x = 0 \/ x = 1 \/ x = 2 \/ x = 3 \/ x = 4 \/ x = 5 \/ x = 6 \/ x = 7.
Proof. lia. Qed.

(** Case analysis on the boolean comparisons left in a goal. *)
Ltac split_tests :=
  repeat match goal with
  | |- context [?a =? ?b] => destruct (Z.eqb_spec a b)
  | |- context [?a <=? ?b] => destruct (Z.leb_spec a b)
  | |- context [?a <? ?b] => destruct (Z.ltb_spec a b)
  end.

(** Unfold the field accessors of classes and levels, nothing else. *)
Ltac unfold_levels :=
  unfold ClassOps.valid, RtPriorityLevel.valid, BePriorityLevel.valid,
    ClassOps.kind, ClassOps.data, RtPriorityLevel.data, BePriorityLevel.data in *;
  cbn [RtPriorityLevel.inner BePriorityLevel.inner] in *.

(** Enumerate the eight values of a valid level and evaluate. *)
Ltac enum_level H :=
  unfold RtPriorityLevel.valid, BePriorityLevel.valid in H; simpl in H;
  destruct (level_cases _ H) as [-> | [-> | [-> | [-> | [-> | [-> | [-> | ->]]]]]]];
  reflexivity.

(** On a valid class, the [lor] adds the kind (shifted) and the level. *)
Lemma new_inner_arith (c : Class) :
  ClassOps.valid c ->
  Priority.inner (Priority.new c) = ClassOps.kind c * 8192 + ClassOps.data c.
Proof.
  destruct c as [[x] | [x] |]; simpl; intros H;
    [ enum_level H | enum_level H | reflexivity ].
Qed.

(** A successful decoding yields a class satisfying the level invariant. *)
Lemma class_valid (p : Priority.t) (c : Class) :
  Priority.class p = Some c -> ClassOps.valid c.
Proof.
  destruct p as [v]. unfold Priority.class, u8_try_from_u16,
    RtPriorityLevel.from_level, BePriorityLevel.from_level; simpl.
  set (d := Z.land v 8191).
  assert (0 <= d) by (apply Z.land_nonneg; lia).
  split_tests; intros Hc; try discriminate; inversion Hc; subst; simpl;
    unfold RtPriorityLevel.valid, BePriorityLevel.valid; simpl; lia.
Qed.

(** Decoding an encoded valid class gives it back. *)
Lemma new_class_roundtrip_aux (c : Class) :
  ClassOps.valid c -> Priority.class (Priority.new c) = Some c.
Proof.
  destruct c as [[x] | [x] |]; simpl; intros H;
    [ enum_level H | enum_level H | reflexivity ].
Qed.

(** ** C1: round trip *)

(** C1: for every class built from valid levels (levels 0..=7 for
    [Realtime] and [BestEffort], or [Idle]), decoding the priority
    produced by [Priority::new] gives the class back. *)
Theorem new_class_roundtrip (c : Class) :
  ClassOps.valid c -> Priority.class (Priority.new c) = Some c.
Proof.
  destruct c as [[x] | [x] |]; simpl; intros H;
    [ enum_level H | enum_level H | reflexivity ].
Qed.

Lemma new_class_roundtrip_witness :
  ClassOps.valid (BestEffort BePriorityLevel.lowest) /\
  Priority.class (Priority.new (BestEffort BePriorityLevel.lowest))
    = Some (BestEffort BePriorityLevel.lowest).
Proof.
  assert (H : ClassOps.valid (BestEffort BePriorityLevel.lowest))
    by (simpl; unfold BePriorityLevel.valid; simpl; lia).
  split; [ exact H | apply (new_class_roundtrip _ H) ].
Defined.

(** ** C8: the standard priority *)

(** C8: [Priority::standard()] has the raw value 0 and decodes to no
    class. *)
Theorem standard_inner_class :
  Priority.inner Priority.standard = 0 /\ Priority.class Priority.standard = None.
Proof. split; reflexivity. Qed.

(** ** C2: decoding of an arbitrary mask *)

Lemma class_decode_aux (v : Z) (Hv : 0 <= v < 65536) :
  (forall l, Priority.class (Priority.from_inner v) = Some (Realtime l) <->
     Z.shiftr v 13 = 1 /\ Z.land v 8191 <= 7 /\
     RtPriorityLevel.inner l = Z.land v 8191) /\
  (forall l, Priority.class (Priority.from_inner v) = Some (BestEffort l) <->
     Z.shiftr v 13 = 2 /\ Z.land v 8191 <= 7 /\
     BePriorityLevel.inner l = Z.land v 8191) /\
  (Priority.class (Priority.from_inner v) = Some Idle <-> Z.shiftr v 13 = 3) /\
  (Priority.class (Priority.from_inner v) = None <->
     In (Z.shiftr v 13) [0; 4; 5; 6; 7] \/
     ((Z.shiftr v 13 = 1 \/ Z.shiftr v 13 = 2) /\ Z.land v 8191 > 7)).
Proof.
  unfold Priority.class, Priority.from_inner, u8_try_from_u16,
    RtPriorityLevel.from_level, BePriorityLevel.from_level; cbn [Priority.inner].
  rewrite shiftr13_div, land8191_mod by lia.
  assert (Hd := Z.mod_pos_bound v 8192 ltac:(lia)).
  assert (Hk : 0 <= v / 8192 < 8).
  { split; [ apply Z.div_pos | apply Z.div_lt_upper_bound ]; lia. }
  set (k := v / 8192) in *; set (d := v mod 8192) in *; clearbody k d.
  cbn [In].
  split; [ intros [x] | split; [ intros [x] | ] ];
    cbn [RtPriorityLevel.inner BePriorityLevel.inner];
    split_tests; intuition (try discriminate; try congruence; try lia).
Qed.

(** C2: for every 16-bit [v], [Priority::from_inner(v).class()] is
    [Some(Realtime(l))] exactly when the kind bits [v >> 13] are 1 and the
    data bits [v & 0x1FFF] are at most 7 (and [l] wraps them),
    [Some(BestEffort(l))] likewise for kind 2, [Some(Idle)] exactly when
    the kind is 3 whatever the data, and [None] exactly when the kind is
    one of 0, 4, 5, 6, 7 or the data exceed 7 under kinds 1 and 2. *)
Theorem class_decode_spec (v : Z) (Hv : 0 <= v < 65536) :
  (forall l, Priority.class (Priority.from_inner v) = Some (Realtime l) <->
     Z.shiftr v 13 = 1 /\ Z.land v 8191 <= 7 /\
     RtPriorityLevel.inner l = Z.land v 8191) /\
  (forall l, Priority.class (Priority.from_inner v) = Some (BestEffort l) <->
     Z.shiftr v 13 = 2 /\ Z.land v 8191 <= 7 /\
     BePriorityLevel.inner l = Z.land v 8191) /\
  (Priority.class (Priority.from_inner v) = Some Idle <-> Z.shiftr v 13 = 3) /\
  (Priority.class (Priority.from_inner v) = None <->
     In (Z.shiftr v 13) [0; 4; 5; 6; 7] \/
     ((Z.shiftr v 13 = 1 \/ Z.shiftr v 13 = 2) /\ Z.land v 8191 > 7)).
Proof. exact (class_decode_aux v Hv). Qed.

Lemma class_decode_spec_witness :
  (0 <= 16388 < 65536) /\
  Priority.class (Priority.from_inner 16388) = Some (BestEffort BePriorityLevel.fallback).
Proof.
  assert (H : 0 <= 16388 < 65536) by lia.
  split; [ exact H | ].
  destruct (class_decode_spec 16388 H) as [_ [Hbe _]].
  apply Hbe. split; [ reflexivity | split; [ vm_compute; discriminate | reflexivity ] ].
Defined.

(** ** C3: encoding and decoding on the valid subset *)

Lemma priority_eq_iff (p q : Priority.t) :
  p = q <-> Priority.inner p = Priority.inner q.
Proof. destruct p, q; cbn; split; intros H; [ injection H | subst ]; auto. Qed.

(** C3 (as stated, refuted): the mask [0x6001] decodes to [Idle], yet
    [Priority::new(Idle)] is [0x6000], so encoding is not the inverse of
    decoding on every mask that decodes. *)
Lemma idle_data_bits_not_inverse :
  Priority.class (Priority.from_inner 24577) = Some Idle /\
  Priority.new Idle <> Priority.from_inner 24577.
Proof.
  split; [ reflexivity | ].
  rewrite priority_eq_iff. vm_compute. discriminate.
Qed.

(** C3 (amended): every valid class encodes to one 16-bit mask that
    decodes back to it; [Priority::new] is injective on valid classes;
    each decoded class is valid; and for a mask [v] that decodes to [c],
    [Priority::new(c)] is [v] exactly when [c] is not [Idle] or the 13 data
    bits of [v] are zero (the [Idle] decoding ignores them). *)
Theorem new_class_inverse_valid_subset :
  (forall c, ClassOps.valid c ->
     0 <= Priority.inner (Priority.new c) < 65536 /\
     Priority.class (Priority.new c) = Some c) /\
  (forall c1 c2, ClassOps.valid c1 -> ClassOps.valid c2 ->
     Priority.new c1 = Priority.new c2 -> c1 = c2) /\
  (forall p c, Priority.class p = Some c -> ClassOps.valid c) /\
  (forall v c, 0 <= v < 65536 ->
     Priority.class (Priority.from_inner v) = Some c ->
     (Priority.new c = Priority.from_inner v <->
      c <> Idle \/ Z.land v 8191 = 0)).
Proof.
  split; [ | split; [ | split ] ].
  - intros c Hc. split; [ | apply new_class_roundtrip_aux, Hc ].
    rewrite new_inner_arith by exact Hc.
    destruct c as [[x] | [x] |]; unfold_levels; lia.
  - intros c1 c2 H1 H2 Heq.
    assert (E : Some c1 = Some c2).
    { rewrite <- (new_class_roundtrip_aux c1 H1), <- (new_class_roundtrip_aux c2 H2), Heq.
      reflexivity. }
    injection E; auto.
  - exact class_valid.
  - intros v c Hv Hc.
    pose proof (class_valid _ _ Hc) as Hvc.
    destruct (class_decode_aux v Hv) as [Hrt [Hbe [Hid _]]].
    rewrite priority_eq_iff, new_inner_arith by exact Hvc. cbn [Priority.inner Priority.from_inner].
    pose proof (Z.div_mod v 8192 ltac:(lia)) as Hdm.
    rewrite shiftr13_div, land8191_mod in Hrt, Hbe by lia.
    rewrite shiftr13_div in Hid by lia.
    rewrite land8191_mod by lia.
    destruct c as [l | l |].
    + apply Hrt in Hc. destruct l as [x]; unfold_levels.
      split; [ intros _; left; discriminate | intros _; lia ].
    + apply Hbe in Hc. destruct l as [x]; unfold_levels.
      split; [ intros _; left; discriminate | intros _; lia ].
    + apply Hid in Hc. unfold_levels.
      split; [ intros H; right; lia | intros [H | H]; [ congruence | lia ] ].
Qed.

(** ** C4: the partial order on priorities *)

(** C4: [partial_cmp(a, b)] is a value exactly when both masks decode, it
    is then the comparison of the decoded classes, and it is [None] as soon
    as one of them does not decode. *)
Theorem priority_partial_cmp_spec (a b : Priority.t) :
  (Priority.partial_cmp a b <> None <->
   Priority.class a <> None /\ Priority.class b <> None) /\
  (forall ca cb, Priority.class a = Some ca -> Priority.class b = Some cb ->
     Priority.partial_cmp a b = Some (ClassOps.cmp ca cb)) /\
  (Priority.class a = None \/ Priority.class b = None ->
   Priority.partial_cmp a b = None).
Proof.
  unfold Priority.partial_cmp.
  destruct (Priority.class a), (Priority.class b); intuition congruence.
Qed.

(** ** C5: the order on classes *)

(** The [unreachable!()] arm of [cmp_tail] is dead: when [then_with] runs
    the closure the ranks are equal, hence the variants agree. *)
Lemma cmp_tail_reachable_same_variant (c1 c2 : Class) :
  ClassOps.rel_priority c1 = ClassOps.rel_priority c2 ->
  ClassOps.cmp c1 c2 = ClassOps.cmp_tail c1 c2 /\
  match c1, c2 with
  | Realtime _, Realtime _ | BestEffort _, BestEffort _ | Idle, Idle => True
  | _, _ => False
  end.
Proof.
  intros H. unfold ClassOps.cmp, then_with. rewrite H, Z.compare_refl.
  split; [ reflexivity | destruct c1, c2; cbn in *; auto; discriminate ].
Qed.

(** C5: classes compare first by the rank [rel_priority] (Realtime 2,
    BestEffort 1, Idle 0) whatever their levels; two classes of the same
    variant compare by their levels' own order; two [Idle] are equal. *)
Theorem class_cmp_spec :
  (forall r b, ClassOps.rel_priority (Realtime r) = 2 /\
               ClassOps.rel_priority (BestEffort b) = 1 /\
               ClassOps.rel_priority Idle = 0) /\
  (forall c1 c2, ClassOps.rel_priority c1 <> ClassOps.rel_priority c2 ->
     ClassOps.cmp c1 c2 =
     Z.compare (ClassOps.rel_priority c1) (ClassOps.rel_priority c2)) /\
  (forall r b,
     ClassOps.cmp (Realtime r) (BestEffort b) = Gt /\
     ClassOps.cmp (BestEffort b) (Realtime r) = Lt /\
     ClassOps.cmp (BestEffort b) Idle = Gt /\
     ClassOps.cmp Idle (BestEffort b) = Lt /\
     ClassOps.cmp (Realtime r) Idle = Gt /\
     ClassOps.cmp Idle (Realtime r) = Lt) /\
  (forall l r, ClassOps.cmp (Realtime l) (Realtime r) = RtPriorityLevel.cmp l r) /\
  (forall l r, ClassOps.cmp (BestEffort l) (BestEffort r) = BePriorityLevel.cmp l r) /\
  ClassOps.cmp Idle Idle = Eq.
Proof.
  split; [ intros; repeat split | split; [ | repeat split; reflexivity ] ].
  intros c1 c2 H. unfold ClassOps.cmp, then_with.
  destruct (Z.compare (ClassOps.rel_priority c1) (ClassOps.rel_priority c2)) eqn:E;
    [ apply Z.compare_eq in E; contradiction | reflexivity | reflexivity ].
Qed.

(** ** C6: the order on levels *)

(** C6: on either level type, [cmp a b] is the comparison of the wrapped
    integers reversed: [a < b] exactly when [a]'s integer is larger, and an
    integer-0 level is above every level. *)
Theorem level_cmp_reversed :
  (forall a b : RtPriorityLevel.t,
     RtPriorityLevel.cmp a b =
       Z.compare (RtPriorityLevel.inner b) (RtPriorityLevel.inner a) /\
     (RtPriorityLevel.cmp a b = Lt <->
       RtPriorityLevel.inner a > RtPriorityLevel.inner b)) /\
  (forall a b : BePriorityLevel.t,
     BePriorityLevel.cmp a b =
       Z.compare (BePriorityLevel.inner b) (BePriorityLevel.inner a) /\
     (BePriorityLevel.cmp a b = Lt <->
       BePriorityLevel.inner a > BePriorityLevel.inner b)) /\
  (forall a, 0 <= RtPriorityLevel.inner a ->
     RtPriorityLevel.cmp RtPriorityLevel.highest a <> Lt) /\
  (forall a, 0 <= BePriorityLevel.inner a ->
     BePriorityLevel.cmp BePriorityLevel.highest a <> Lt).
Proof.
  unfold RtPriorityLevel.cmp, BePriorityLevel.cmp, reverse,
    RtPriorityLevel.data, BePriorityLevel.data.
  split; [ | split; [ | split ] ].
  - intros a b. rewrite <- Z.compare_antisym. split; [ reflexivity | ].
    rewrite Z.compare_lt_iff. lia.
  - intros a b. rewrite <- Z.compare_antisym. split; [ reflexivity | ].
    rewrite Z.compare_lt_iff. lia.
  - intros a Ha. rewrite <- Z.compare_antisym, Z.compare_lt_iff. cbn. lia.
  - intros a Ha. rewrite <- Z.compare_antisym, Z.compare_lt_iff. cbn. lia.
Qed.

(** ** C7: constructing levels *)

(** C7: for every [u8] [n], [from_level(n)] on either level type succeeds
    exactly when [n] is at most 7, and [level()] of its result is [n]; in
    particular 7 is accepted and 8 refused. *)
Theorem from_level_spec (n : Z) (Hn : 0 <= n <= 255) :
  (RtPriorityLevel.from_level n <> None <-> 0 <= n <= 7) /\
  (forall l, RtPriorityLevel.from_level n = Some l -> RtPriorityLevel.level l = n) /\
  (BePriorityLevel.from_level n <> None <-> 0 <= n <= 7) /\
  (forall l, BePriorityLevel.from_level n = Some l -> BePriorityLevel.level l = n) /\
  RtPriorityLevel.from_level 7 <> None /\ RtPriorityLevel.from_level 8 = None /\
  BePriorityLevel.from_level 7 <> None /\ BePriorityLevel.from_level 8 = None.
Proof.
  unfold RtPriorityLevel.from_level, BePriorityLevel.from_level,
    RtPriorityLevel.level, BePriorityLevel.level.
  destruct (Z.ltb_spec n 8);
    repeat split; intros; try discriminate; try lia; try congruence;
    match goal with
    | H : Some _ = Some _ |- _ => injection H as <-; reflexivity
    | _ => idtac
    end.
Qed.

Lemma from_level_spec_witness :
  (0 <= 7 <= 255) /\ RtPriorityLevel.from_level 7 <> None.
Proof.
  assert (H : 0 <= 7 <= 255) by lia.
  split; [ exact H | apply (proj2 (proj1 (from_level_spec 7 H))); lia ].
Defined.

(** ** C9: targets *)

Lemma as_i32_signed (x : Z) : -2 ^ 31 <= x < 2 ^ 31 -> as_i32 x = x.
Proof.
  intros Hx. unfold as_i32.
  pose proof (Z.div_mod x (2 ^ 32) ltac:(lia)) as E.
  pose proof (Z.mod_pos_bound x (2 ^ 32) ltac:(lia)) as B.
  set (q := x / 2 ^ 32) in *; set (r := x mod 2 ^ 32) in *; clearbody q r.
  change (2 ^ 32) with 4294967296 in *; change (2 ^ 31) with 2147483648 in *.
  split_tests; lia.
Qed.

Lemma as_i32_unsigned (x : Z) : 0 <= x < 2 ^ 32 ->
  as_i32 x = (if x <? 2 ^ 31 then x else x - 2 ^ 32).
Proof.
  intros Hx. unfold as_i32. rewrite Z.mod_small by lia. split_tests; lia.
Qed.

(** C9 (as stated, refuted): the uid [4294967295] is passed as [-1]. *)
Lemma target_user_uid_reinterpreted :
  target_which_who (User 4294967295) <> (3, 4294967295).
Proof. vm_compute. discriminate. Qed.

(** C9 (amended): [Process(pid)] maps to [(1, pid)] and
    [ProcessGroup(pgid)] to [(2, pgid)], unchanged; [User(uid)] maps to
    [(3, uid as c_int)], the two's-complement reinterpretation of the
    [u32]: [uid] below [2^31], [uid - 2^32] above, with the same 32 bits.
    No id is validated. *)
Theorem target_which_who_spec :
  (forall pid, -2 ^ 31 <= pid < 2 ^ 31 ->
     target_which_who (Process pid) = (1, pid) /\
     target_which_who (ProcessGroup pid) = (2, pid)) /\
  (forall uid, 0 <= uid < 2 ^ 32 ->
     target_which_who (User uid) =
       (3, if uid <? 2 ^ 31 then uid else uid - 2 ^ 32) /\
     snd (target_which_who (User uid)) mod 2 ^ 32 = uid).
Proof.
  split.
  - intros pid H. cbn [target_which_who]. rewrite as_i32_signed by exact H. auto.
  - intros uid H. cbn [target_which_who snd]. rewrite as_i32_unsigned by exact H.
    split; [ reflexivity | ].
    destruct (Z.ltb_spec uid (2 ^ 31)).
    + apply Z.mod_small; lia.
    + replace (uid - 2 ^ 32) with (uid + (-1) * 2 ^ 32) by ring.
      rewrite Z.mod_add by lia. apply Z.mod_small; lia.
Qed.

(** ** C10: undecodable masks are unordered with themselves *)

(** C10: a mask that does not decode is equal to itself under the derived
    equality, yet [partial_cmp] of it with itself is [None]. *)
Theorem undecodable_not_reflexive (p : Priority.t) (H : Priority.class p = None) :
  Priority.partial_cmp p p = None /\ Priority.eq p p = true.
Proof.
  unfold Priority.partial_cmp, Priority.eq. rewrite H.
  split; [ reflexivity | apply Z.eqb_refl ].
Qed.

Lemma undecodable_not_reflexive_witness :
  Priority.class Priority.standard = None /\
  Priority.partial_cmp Priority.standard Priority.standard = None /\
  Priority.eq Priority.standard Priority.standard = true.
Proof.
  assert (H : Priority.class Priority.standard = None) by reflexivity.
  split; [ exact H | exact (undecodable_not_reflexive _ H) ].
Defined.

(** * Further properties of the code *)

(** ** Order laws *)

(** Case analysis on every integer comparison in the goal and context. *)
Ltac split_compares :=
  repeat match goal with
  | |- context [?x ?= ?y] => destruct (Z.compare_spec x y)
  | H : context [?x ?= ?y] |- _ => destruct (Z.compare_spec x y)
  end.

(** Destruct classes into their nine (or 27) variant combinations and
    evaluate the comparisons. *)
Ltac class_cases :=
  repeat match goal with
  | c : Class |- _ => destruct c as [[?] | [?] |]
  end;
  unfold ClassOps.cmp, then_with, ClassOps.cmp_tail, RtPriorityLevel.cmp,
    BePriorityLevel.cmp, reverse, RtPriorityLevel.data, BePriorityLevel.data in *;
  cbn [ClassOps.rel_priority RtPriorityLevel.inner BePriorityLevel.inner] in *;
  simpl Z.compare in *; split_compares; simpl CompOpp in *.

Lemma class_cmp_antisym (a b : Class) :
  ClassOps.cmp b a = CompOpp (ClassOps.cmp a b).
Proof. class_cases; try reflexivity; lia. Qed.

Lemma class_cmp_eq_iff (a b : Class) : ClassOps.cmp a b = Eq <-> a = b.
Proof.
  class_cases; split; intros Heq; try discriminate; try reflexivity;
    try (injection Heq; intros); try congruence; lia.
Qed.

Lemma class_cmp_trans (a b c : Class) :
  ClassOps.cmp a b = Lt -> ClassOps.cmp b c = Lt -> ClassOps.cmp a c = Lt.
Proof. class_cases; intros; try discriminate; try reflexivity; lia. Qed.

(** [Ord for Class] is a total order agreeing with the derived equality:
    swapping the arguments reverses the result, [Equal] holds exactly for
    equal classes, and [Less] is transitive. *)
Theorem class_cmp_total_order :
  (forall a b, ClassOps.cmp b a = CompOpp (ClassOps.cmp a b)) /\
  (forall a b, ClassOps.cmp a b = Eq <-> a = b) /\
  (forall a b c, ClassOps.cmp a b = Lt -> ClassOps.cmp b c = Lt ->
     ClassOps.cmp a c = Lt) /\
  (forall a b, ClassOps.partial_cmp a b = Some (ClassOps.cmp a b)).
Proof.
  split; [ exact class_cmp_antisym | split; [ exact class_cmp_eq_iff |
    split; [ exact class_cmp_trans | reflexivity ] ] ].
Qed.

(** The order on [Priority] keeps the laws of a partial order where it is
    defined: swapping the arguments reverses the result, and [Less] is
    transitive. *)
Theorem priority_partial_cmp_laws :
  (forall a b, Priority.partial_cmp b a =
               option_map CompOpp (Priority.partial_cmp a b)) /\
  (forall a b c, Priority.partial_cmp a b = Some Lt ->
     Priority.partial_cmp b c = Some Lt -> Priority.partial_cmp a c = Some Lt).
Proof.
  unfold Priority.partial_cmp. split.
  - intros a b. destruct (Priority.class a), (Priority.class b); cbn; auto.
    rewrite class_cmp_antisym. reflexivity.
  - intros a b c.
    destruct (Priority.class a), (Priority.class b), (Priority.class c);
      intros H1 H2; try discriminate.
    injection H1; injection H2; intros. f_equal. eapply class_cmp_trans; eauto.
Qed.

(** Comparing two encoded valid classes as priorities is comparing the
    classes. *)
Theorem priority_partial_cmp_new (a b : Class)
    (Ha : ClassOps.valid a) (Hb : ClassOps.valid b) :
  Priority.partial_cmp (Priority.new a) (Priority.new b) = Some (ClassOps.cmp a b).
Proof.
  unfold Priority.partial_cmp.
  rewrite (new_class_roundtrip_aux a Ha), (new_class_roundtrip_aux b Hb).
  reflexivity.
Qed.

Lemma priority_partial_cmp_new_witness :
  Priority.partial_cmp (Priority.new (Realtime RtPriorityLevel.lowest))
    (Priority.new (BestEffort BePriorityLevel.highest)) = Some Gt.
Proof.
  assert (Ha : ClassOps.valid (Realtime RtPriorityLevel.lowest))
    by (unfold RtPriorityLevel.lowest; unfold_levels; lia).
  assert (Hb : ClassOps.valid (BestEffort BePriorityLevel.highest))
    by (unfold BePriorityLevel.highest; unfold_levels; lia).
  exact (priority_partial_cmp_new _ _ Ha Hb).
Defined.

(** ** Level constants *)

(** The named levels are the [from_level] of their integers; [highest] is
    above and [lowest] below every valid level, for both level types; and
    [from_level(level())] gives a valid level back. *)
Theorem level_constants_extremes :
  RtPriorityLevel.from_level 0 = Some RtPriorityLevel.highest /\
  RtPriorityLevel.from_level 7 = Some RtPriorityLevel.lowest /\
  BePriorityLevel.from_level 0 = Some BePriorityLevel.highest /\
  BePriorityLevel.from_level 4 = Some BePriorityLevel.fallback /\
  BePriorityLevel.from_level 7 = Some BePriorityLevel.lowest /\
  (forall l, RtPriorityLevel.valid l ->
     RtPriorityLevel.cmp RtPriorityLevel.highest l <> Lt /\
     RtPriorityLevel.cmp RtPriorityLevel.lowest l <> Gt /\
     RtPriorityLevel.from_level (RtPriorityLevel.level l) = Some l) /\
  (forall l, BePriorityLevel.valid l ->
     BePriorityLevel.cmp BePriorityLevel.highest l <> Lt /\
     BePriorityLevel.cmp BePriorityLevel.lowest l <> Gt /\
     BePriorityLevel.from_level (BePriorityLevel.level l) = Some l).
Proof.
  do 5 (split; [ reflexivity | ]).
  split; intros [x] Hx;
    unfold RtPriorityLevel.valid, BePriorityLevel.valid in Hx;
    unfold RtPriorityLevel.cmp, BePriorityLevel.cmp, reverse,
      RtPriorityLevel.highest, RtPriorityLevel.lowest,
      BePriorityLevel.highest, BePriorityLevel.lowest,
      RtPriorityLevel.from_level, BePriorityLevel.from_level,
      RtPriorityLevel.level, BePriorityLevel.level,
      RtPriorityLevel.data, BePriorityLevel.data;
    cbn [RtPriorityLevel.inner BePriorityLevel.inner] in *;
    split_tests; (split; [ | split ]); split_compares; cbn [CompOpp];
    try discriminate; try reflexivity; lia.
Qed.

(** ** Bit layout of [Priority::new] *)

(** For a valid class, [Priority::new] puts the kind in bits 13..15 and
    the level in the low 13 bits, and the top bit is clear. *)
Theorem new_bit_layout (c : Class) (Hc : ClassOps.valid c) :
  Z.shiftr (Priority.inner (Priority.new c)) 13 = ClassOps.kind c /\
  Z.land (Priority.inner (Priority.new c)) 8191 = ClassOps.data c /\
  0 <= Priority.inner (Priority.new c) < 2 ^ 15.
Proof.
  destruct c as [[x] | [x] |]; unfold_levels;
    [ destruct (level_cases _ Hc) as [-> | [-> | [-> | [-> | [-> | [-> | [-> | ->]]]]]]]
    | destruct (level_cases _ Hc) as [-> | [-> | [-> | [-> | [-> | [-> | [-> | ->]]]]]]]
    | ]; vm_compute; repeat split; discriminate.
Qed.

Lemma new_bit_layout_witness :
  ClassOps.valid (Realtime RtPriorityLevel.lowest) /\
  Z.shiftr (Priority.inner (Priority.new (Realtime RtPriorityLevel.lowest))) 13 = 1.
Proof.
  assert (H : ClassOps.valid (Realtime RtPriorityLevel.lowest))
    by (unfold RtPriorityLevel.lowest; unfold_levels; lia).
  split; [ exact H | exact (proj1 (new_bit_layout _ H)) ].
Defined.

(** ** Idle masks: ordered equal, yet distinct *)

(** Every mask of kind 3 compares [Equal] with [Priority::new(Idle)],
    while the derived equality holds only when its data bits are zero: an
    [Equal] ordering does not imply [==] on [Priority]. *)
Theorem idle_masks_cmp_equal (v : Z) (Hv : 0 <= v < 65536)
    (Hk : Z.shiftr v 13 = 3) :
  Priority.partial_cmp (Priority.from_inner v) (Priority.new Idle) = Some Eq /\
  (Priority.eq (Priority.from_inner v) (Priority.new Idle) = true <->
   Z.land v 8191 = 0).
Proof.
  split.
  - unfold Priority.partial_cmp, Priority.class at 1. cbn [Priority.inner Priority.from_inner].
    rewrite Hk. reflexivity.
  - unfold Priority.eq. rewrite Z.eqb_eq.
    rewrite new_inner_arith by exact I. cbn.
    rewrite shiftr13_div in Hk by lia. rewrite land8191_mod by lia.
    pose proof (Z.div_mod v 8192 ltac:(lia)). lia.
Qed.

Lemma idle_masks_cmp_equal_witness :
  Priority.partial_cmp (Priority.from_inner 24577) (Priority.new Idle) = Some Eq /\
  Priority.eq (Priority.from_inner 24577) (Priority.new Idle) = false.
Proof.
  assert (Hv : 0 <= 24577 < 65536) by lia.
  assert (Hk : Z.shiftr 24577 13 = 3) by reflexivity.
  split; [ exact (proj1 (idle_masks_cmp_equal 24577 Hv Hk)) | reflexivity ].
Defined.

(** ** The syscall wrappers *)

(** [get_priority] fails exactly when the raw result is [-1], with the
    [errno] left by the call unchanged; otherwise the mask is the result
    truncated to 16 bits, and a result that already fits in 16 bits is
    returned unchanged. *)
Theorem get_priority_spec {K : Type} (get : K -> Z -> Z -> Z * Z)
    (k : K) (target : Target) :
  let which := fst (target_which_who target) in
  let who := snd (target_which_who target) in
  (forall e, Syscall.get_priority get k target = Err e <->
             get k which who = (-1, e)) /\
  (forall r err, r <> -1 -> get k which who = (r, err) ->
     Syscall.get_priority get k target = Ok (Priority.from_inner (r mod 2 ^ 16))) /\
  (forall r err, 0 <= r < 2 ^ 16 -> get k which who = (r, err) ->
     Syscall.get_priority get k target = Ok (Priority.from_inner r)).
Proof.
  cbv zeta. unfold Syscall.get_priority.
  destruct (target_which_who target) as [which who]; cbn [fst snd].
  destruct (get k which who) as [res err0]; unfold errno_result.
  split; [ | split ].
  - intros e. destruct (Z.eqb_spec res (-1)) as [-> | Hne];
      split; intros H; try discriminate; congruence.
  - intros r err Hr H. injection H as -> ->.
    destruct (Z.eqb_spec r (-1)); [ contradiction | reflexivity ].
  - intros r err Hr H. injection H as -> ->.
    destruct (Z.eqb_spec r (-1)); [ lia | ].
    unfold wrap16. rewrite Z.mod_small by lia. reflexivity.
Qed.

(** [set_priority] passes the mask of a 16-bit priority unchanged with
    the target's [which]/[who]; it fails exactly when the raw result is
    [-1], with the [errno] unchanged, and leaves the kernel in the state
    the call produced. *)
Theorem set_priority_spec {K : Type} (set : K -> Z -> Z -> Z -> (Z * Z) * K)
    (k : K) (target : Target) (p : Priority.t)
    (Hp : 0 <= Priority.inner p < 2 ^ 16) :
  let call := set k (fst (target_which_who target))
                  (snd (target_which_who target)) (Priority.inner p) in
  (forall e, fst (Syscall.set_priority set k target p) = Err e <->
             fst call = (-1, e)) /\
  (fst (Syscall.set_priority set k target p) = Ok tt <-> fst (fst call) <> -1) /\
  snd (Syscall.set_priority set k target p) = snd call.
Proof.
  cbv zeta. unfold Syscall.set_priority.
  rewrite (as_i32_signed (Priority.inner p)) by lia.
  destruct (target_which_who target) as [which who]; cbn [fst snd].
  destruct (set k which who (Priority.inner p)) as [[res err0] k']; cbn [fst snd].
  unfold errno_result.
  destruct (Z.eqb_spec res (-1)) as [-> | Hne]; cbn [fst snd];
    repeat split; intros; try discriminate; try congruence.
Qed.

Lemma set_priority_spec_witness :
  0 <= Priority.inner Priority.standard < 2 ^ 16 /\
  snd (Syscall.set_priority (fun (_ : Z) _ _ v => ((0, 0), v)) 5
         (Process 0) Priority.standard) = 0.
Proof.
  assert (Hp : 0 <= Priority.inner Priority.standard < 2 ^ 16) by (cbn; lia).
  split; [ exact Hp | ].
  exact (proj2 (proj2 (set_priority_spec (fun (_ : Z) _ _ v => ((0, 0), v))
                         5 (Process 0) Priority.standard Hp))).
Defined.

(** Against a kernel that stores the mask a successful [ioprio_set] is
    given and returns it from [ioprio_get], a successful [set_priority] of
    a 16-bit priority is read back unchanged by [get_priority] on the same
    target. *)
Theorem set_then_get_priority {K : Type}
    (get : K -> Z -> Z -> Z * Z) (set : K -> Z -> Z -> Z -> (Z * Z) * K)
    (Hstore : forall k which who v res err k',
        set k which who v = ((res, err), k') -> res <> -1 ->
        fst (get k' which who) = v)
    (k k' : K) (target : Target) (p : Priority.t)
    (Hp : 0 <= Priority.inner p < 2 ^ 16)
    (Hset : Syscall.set_priority set k target p = (Ok tt, k')) :
  Syscall.get_priority get k' target = Ok p.
Proof.
  unfold Syscall.set_priority in Hset. unfold Syscall.get_priority.
  rewrite (as_i32_signed (Priority.inner p)) in Hset by lia.
  destruct (target_which_who target) as [which who].
  destruct (set k which who (Priority.inner p)) as [[res err] k''] eqn:E.
  unfold errno_result in Hset.
  destruct (Z.eqb_spec res (-1)) as [-> | Hne]; [ discriminate | ].
  injection Hset as <-.
  pose proof (Hstore _ _ _ _ _ _ _ E Hne) as Hget.
  destruct (get k'' which who) as [r e]; cbn [fst] in Hget; subst r.
  unfold errno_result.
  destruct (Z.eqb_spec (Priority.inner p) (-1)); [ lia | ].
  unfold wrap16. rewrite Z.mod_small by lia. destruct p; reflexivity.
Qed.

Lemma set_then_get_priority_witness :
  Syscall.get_priority (fun (k : Z) _ _ => (k, 0))
    (snd (Syscall.set_priority (fun (_ : Z) _ _ v => ((0, 0), v)) 0
            (User 1000) (Priority.new (BestEffort BePriorityLevel.fallback))))
    (User 1000)
  = Ok (Priority.new (BestEffort BePriorityLevel.fallback)).
Proof.
  refine (set_then_get_priority (fun (k : Z) _ _ => (k, 0))
           (fun (_ : Z) _ _ v => ((0, 0), v)) _ 0 _ (User 1000) _ _ _).
  - intros k which who v res err k' H _. injection H as _ _ <-. reflexivity.
  - cbn. lia.
  - reflexivity.
Defined.

(** ** [SqeExt] *)

(** Setting the priority of a submission entry and reading it back gives
    the priority set; setting changes no other field; a second set
    overrides the first; and setting the priority read leaves the entry as
    it was. *)
Theorem sqe_priority_set_get {Other : Type} (s : SqeExt.SQE Other)
    (p q : Priority.t) :
  SqeExt.priority (SqeExt.set_priority s p) = p /\
  SqeExt.rest (SqeExt.set_priority s p) = SqeExt.rest s /\
  SqeExt.set_priority (SqeExt.set_priority s p) q = SqeExt.set_priority s q /\
  SqeExt.set_priority s (SqeExt.priority s) = s.
Proof. destruct s, p; repeat split. Qed.
